(** * HairCareOS: session bookkeeping of [main.py]

    A shallow embedding of [src/main.py]: the module-level key check, the
    agent configuration built by [set_config], and the two Chainlit
    handlers [chat_start] and [main] with the per-session store they read
    and write.

    Python lists are mutable objects handled by reference, and the message
    handler relies on that (it appends to the list it got from the session
    store), so lists live in a heap and the session store holds references
    to them. *)

From stdpp Require Import gmap strings list fin_maps.

Local Open Scope string_scope.
Local Open Scope list_scope.

(** ** Python results *)

(** A raised exception: the name of its class and what [str(e)] gives. *)
Record PyException := mkException {
  exc_class : string;
  exc_str   : string;
}.

(** [str(e)] *)
Definition str (e : PyException) : string := exc_str e.

(** The exception classes of Python and its standard library that derive
    from [BaseException] without deriving from [Exception]; the last one
    is [asyncio.CancelledError]. *)
Definition not_Exception : list string :=
  ["BaseException"; "BaseExceptionGroup"; "GeneratorExit";
   "KeyboardInterrupt"; "SystemExit"; "CancelledError"].

(** [isinstance(e, Exception)] *)
Definition isinstance_Exception (e : PyException) : bool :=
  bool_decide (exc_class e ∉ not_Exception).

Inductive PyResult (A : Type) :=
  | Ok (a : A)
  | Raise (e : PyException).
Arguments Ok {A} a.
Arguments Raise {A} e.

(** ** Configuration records (the constructor calls of [set_config]) *)

(** [AsyncOpenAI(api_key=..., base_url=...)] *)
Record AsyncOpenAI := mkAsyncOpenAI {
  api_key  : string;
  base_url : string;
}.

(** [OpenAIChatCompletionsModel(model=..., openai_client=...)] *)
Record OpenAIChatCompletionsModel := mkModel {
  model_name    : string;
  openai_client : AsyncOpenAI;
}.

(** [RunConfig(model=..., model_provider=..., tracing_disabled=...)] *)
Record RunConfig := mkRunConfig {
  model            : OpenAIChatCompletionsModel;
  model_provider   : AsyncOpenAI;
  tracing_disabled : bool;
}.

(** [Agent(name=..., instructions=..., handoff_description=..., tools=...,
    model=...)] and the tool that [Agent.as_tool] wraps around an agent.
    [handoff_description] and [tools] are optional keyword arguments: the
    orchestrator is built without the former, the specialists without the
    latter. *)
Inductive Agent :=
  | mkAgent (name : string) (instructions : string)
            (handoff_description : option string)
            (tools : list Tool) (agent_model : OpenAIChatCompletionsModel)
with Tool :=
  | mkTool (tool_name : string) (tool_description : string) (wrapped : Agent).

Definition name (a : Agent) : string :=
  match a with mkAgent n _ _ _ _ => n end.
Definition instructions (a : Agent) : string :=
  match a with mkAgent _ i _ _ _ => i end.
Definition handoff_description (a : Agent) : option string :=
  match a with mkAgent _ _ h _ _ => h end.
Definition tools (a : Agent) : list Tool :=
  match a with mkAgent _ _ _ t _ => t end.
Definition agent_model (a : Agent) : OpenAIChatCompletionsModel :=
  match a with mkAgent _ _ _ _ m => m end.

Definition tool_name (t : Tool) : string :=
  match t with mkTool n _ _ => n end.
Definition tool_description (t : Tool) : string :=
  match t with mkTool _ d _ => d end.
Definition wrapped (t : Tool) : Agent :=
  match t with mkTool _ _ a => a end.

(** [agent.as_tool(tool_name=..., tool_description=...)] *)
Definition as_tool (a : Agent) (tool_name tool_description : string) : Tool :=
  mkTool tool_name tool_description a.

(** ** [set_config] *)

Module Config.

Definition instruction : string := "
    > You are the **HairCare Specialist**, a master controller agent responsible for managing a team of specialized hair care agents. Your goal is to understand the user's concerns and intelligently delegate tasks to the appropriate sub-agents.
    >
    > 🎯 **Your Responsibilities:**
    >
    > 1. Interpret user input related to hair issues, scalp condition, product needs, or routines.
    > 2. Decide **which sub-agent(s)** are best suited for the task and **handoff** control to them.
    > 3. Coordinate the flow between multiple agents when more than one is needed.
    > 4. Ensure user gets a **complete, personalized solution** by gathering results from agents and combining them into a single, helpful response.
    >
    > 📦 **Available Sub-Agents and Their Roles:**
    >
    > * `ScalpAnalyzer`: Diagnoses scalp conditions.
    > * `ProductRecommender`: Suggests hair care products.
    > * `TreatmentPlanner`: Creates personalized hair care routines.
    > * `DietAdvisor`: Recommends diet/supplements for healthy hair.
    > * `HairLossSpecialist`: Handles advanced hair loss concerns.
    >
    > 🔄 **Interaction Strategy:**
    >
    > * Use the **minimum number of agents** required to solve the user's problem fully.
    > * Provide a **summary or report** to the user combining all relevant outputs.".

Section WithKey.

(** The module-level global read by [set_config]. *)
Variable gemini_api_key : string.

Definition client : AsyncOpenAI :=
  mkAsyncOpenAI gemini_api_key
    "https://generativelanguage.googleapis.com/v1beta/openai/".

Definition model : OpenAIChatCompletionsModel :=
  mkModel "gemini-2.5-flash" client.

Definition config : RunConfig :=
  mkRunConfig model client true.

Definition Scalp_Analyzer : Agent :=
  mkAgent "ScalpAnalyzer Agent"
    "Analyze scalp condition based on input symptoms (e.g., dryness, oiliness, dandruff)."
    (Some "Used when a scalp-related diagnosis is needed before recommending treatments.")
    [] model.

Definition Product_Recommender : Agent :=
  mkAgent "ProductRecommender Agent"
    "Suggest personalized hair products based on scalp type, hair goals, and budget."
    (Some "Activated after scalp diagnosis or when the user directly asks for product advice.")
    [] model.

Definition Treatment_planner : Agent :=
  mkAgent "TreatmentPlanner Agent"
    "Create a step-by-step weekly hair care routine based on user needs (e.g., hair fall, volume, growth)."
    (Some "Triggered when a user asks for a routine, recovery plan, or ongoing treatment.")
    [] model.

Definition Diet_Advisor : Agent :=
  mkAgent "DietAdvisor Agent"
    "Recommend foods or supplements that support healthy hair from within."
    (Some "Used when user mentions nutritional concerns or wants internal solutions.")
    [] model.

Definition HairLoss_Specialist : Agent :=
  mkAgent "HairLossSpecialist Agent"
    "Analyze hair fall patterns and recommend medical or advanced care."
    (Some "Activated when user talks about hair thinning, patchy loss, or genetic hair loss.")
    [] model.

Definition Scalp_Analyzer_tool : Tool :=
  as_tool Scalp_Analyzer "ScalpAnalyzer"
    "Analyzes the user's scalp condition based on reported symptoms such as dryness, oiliness, flakiness, itching, or redness. It identifies potential scalp disorders (e.g., dandruff, seborrheic dermatitis, psoriasis) and prepares diagnostic context for treatment or product recommendations.".

Definition Product_Recommender_tool : Tool :=
  as_tool Product_Recommender "Product_Recomemnder"
    "Suggests personalized hair care products (shampoos, conditioners, serums, oils) based on the user’s scalp type, hair issues, preferences, and budget. Ensures compatibility with diagnoses provided by other agents like ScalpAnalyzer or HairLossSpecialist.".

Definition Treatment_planner_tool : Tool :=
  as_tool Treatment_planner "Treatment_Planner"
    "Creates a detailed and personalized weekly or daily hair care routine. This includes when and how to apply products, washing schedules, scalp treatments, and maintenance tips. It considers diagnostic data from other agents and user preferences (e.g., minimal steps or intensive care).".

Definition Diet_Advisor_tool : Tool :=
  as_tool Diet_Advisor "Diet_Advisor"
    "Recommends diet improvements and supplements (vitamins, minerals, hydration tips) to support internal hair health. Tailors suggestions based on issues like hair fall, slow growth, or scalp inflammation, bridging nutrition with hair care.".

Definition HairLoss_Specialist_tool : Tool :=
  as_tool HairLoss_Specialist "Hairloss_Specialist"
    "Assesses hair thinning and hair fall severity, patterns, and potential causes (genetics, hormonal imbalance, stress, etc.). Recommends appropriate action such as medical consultation, product use, or advanced care routines. Prepares input for TreatmentPlanner if needed.".

Definition Orchestrator_agent : Agent :=
  mkAgent "HairCare Specialist Agent" instruction None
    [Scalp_Analyzer_tool; Product_Recommender_tool; Treatment_planner_tool;
     Diet_Advisor_tool; HairLoss_Specialist_tool]
    model.

Definition set_config : Agent * RunConfig := (Orchestrator_agent, config).

End WithKey.

End Config.

(** ** Session state *)

(** One transcript entry, the dict literal [{"role": ..., "content": ...}]. *)
Record entry := mkEntry {
  role    : string;
  content : string;
}.

(** References to list objects. *)
Abbreviation loc := positive.

(** An object of some other type (a string, a dict, a Chainlit user): the
    name of its type and its truth value. *)
Record PyObject := mkObject {
  type_name : string;
  truth     : bool;
}.

(** The Python values the handlers pass around. *)
Inductive value :=
  | VNone
  | VList (l : loc)
  | VConfig (c : RunConfig)
  | VAgent (a : Agent)
  | VOther (o : PyObject).

(** Chainlit's [context.session], as far as [cl.user_session] reads it. *)
Module context.

Record session := mkSession {
  id            : value;
  user_env      : value;
  chat_settings : value;
  user          : value;
  chat_profile  : value;
  client_type   : value;
}.

End context.

(** An argument of [print]. *)
Inductive print_arg :=
  | PStr (s : string)
  | PList (h : list entry).

(** One call of [Runner.run] as the SDK sees it: the three keyword
    arguments, and the contents of the list passed as [input] at the time
    of the call. *)
Record run_call := mkRunCall {
  starting_agent : value;
  input          : value;
  input_entries  : list entry;
  run_config     : value;
}.

(** What the handlers act on: the list objects, the session store, the
    contents of the messages shown in the chat (in the order they were
    sent), the orchestration calls made so far, the console, and the
    Chainlit session the handlers run in.

    The dict behind [cl.user_session] is kept in two parts: [reserved]
    holds its entries under the six keys that [cl.user_session.get]
    overwrites from the Chainlit session, [user_session] its entries under
    every other key. *)
Record state := mkState {
  heap            : gmap loc (list entry);
  user_session    : gmap string value;
  messages        : list string;
  runs            : list run_call;
  console         : list (list print_arg);
  context_session : context.session;
  reserved        : gmap string value;
}.

Definition set_heap (f : gmap loc (list entry) → gmap loc (list entry))
    (st : state) : state :=
  mkState (f (heap st)) (user_session st) (messages st) (runs st) (console st)
          (context_session st) (reserved st).
Definition set_user_session (f : gmap string value → gmap string value)
    (st : state) : state :=
  mkState (heap st) (f (user_session st)) (messages st) (runs st) (console st)
          (context_session st) (reserved st).
Definition set_messages (f : list string → list string) (st : state) : state :=
  mkState (heap st) (user_session st) (f (messages st)) (runs st) (console st)
          (context_session st) (reserved st).
Definition set_runs (f : list run_call → list run_call) (st : state) : state :=
  mkState (heap st) (user_session st) (messages st) (f (runs st)) (console st)
          (context_session st) (reserved st).
Definition set_console (f : list (list print_arg) → list (list print_arg))
    (st : state) : state :=
  mkState (heap st) (user_session st) (messages st) (runs st) (f (console st))
          (context_session st) (reserved st).
Definition set_reserved (f : gmap string value → gmap string value)
    (st : state) : state :=
  mkState (heap st) (user_session st) (messages st) (runs st) (console st)
          (context_session st) (f (reserved st)).

(** The entries of the list a value refers to. *)
Definition deref (st : state) (v : value) : list entry :=
  match v with
  | VList l => heap st !!! l
  | _ => []
  end.

(** ** The monad of handler code: state, and exceptions that keep it *)

Definition M (A : Type) : Type := state → PyResult A * state.

Definition ret {A} (a : A) : M A := fun st => (Ok a, st).

Definition bind {A B} (m : M A) (k : A → M B) : M B :=
  fun st =>
    match m st with
    | (Ok a, st') => k a st'
    | (Raise e, st') => (Raise e, st')
    end.

Definition raise {A} (e : PyException) : M A := fun st => (Raise e, st).

(** [try: body except Exception as e: handler e]. An exception that is
    not an instance of [Exception] is not caught. *)
Definition try_except {A} (body : M A) (handler : PyException → M A) : M A :=
  fun st =>
    match body st with
    | (Ok a, st') => (Ok a, st')
    | (Raise e, st') =>
        if isinstance_Exception e then handler e st' else (Raise e, st')
    end.

(** Sequencing is written [x ← m; k] and [m;; k]. *)
#[export] Instance M_ret : MRet M := @ret.
#[export] Instance M_bind : MBind M := λ A B k m, bind m k.

(** The state a computation leaves behind, whatever its result. *)
Definition exec {A} (m : M A) (st : state) : state := (m st).2.

(** ** Python primitives *)

(** A list display [[]]: a new, empty list object. *)
Definition new_list : M value :=
  fun st =>
    let l := fresh (dom (heap st)) in
    (Ok (VList l), set_heap <[l := []]> st).

(** Truth value of an object: [None] and the empty list are false. *)
Definition truthy (st : state) (v : value) : bool :=
  match v with
  | VNone => false
  | VList l => match heap st !!! l with [] => false | _ :: _ => true end
  | VConfig _ | VAgent _ => true
  | VOther o => truth o
  end.

(** [x or y]: [y] is only evaluated when [x] is false. *)
Definition py_or (x : value) (y : M value) : M value :=
  fun st => if truthy st x then (Ok x, st) else y st.

Definition AttributeError (s : string) : PyException :=
  mkException "AttributeError" s.

(** [x.append(e)]: mutates the list object in place. *)
Definition append (x : value) (e : entry) : M unit :=
  match x with
  | VList l => fun st => (Ok (), set_heap (λ h, <[l := h !!! l ++ [e]]> h) st)
  | VNone => raise (AttributeError "'NoneType' object has no attribute 'append'")
  | VConfig _ => raise (AttributeError "'RunConfig' object has no attribute 'append'")
  | VAgent _ => raise (AttributeError "'Agent' object has no attribute 'append'")
  | VOther o =>
      raise (AttributeError
               ("'" +:+ type_name o +:+ "' object has no attribute 'append'"))
  end.

Definition print (args : list print_arg) : M unit :=
  fun st => (Ok (), set_console (λ c, c ++ [args]) st).

(** ** Chainlit *)

(** The calls into Chainlit are modelled by what they do to the chat and to
    the session store; they do not raise. The handlers run inside a
    Chainlit session, so [context.session] is always there. *)

Module cl.

(** An incoming [cl.Message]. *)
Record Message := mkMessage { content : string }.

(** [msg = cl.Message(content=c); await msg.send()]: the message is shown
    in the chat; the result stands for the message object [msg]. *)
Definition Message_send (c : string) : M nat :=
  fun st => (Ok (length (messages st)), set_messages (λ ms, ms ++ [c]) st).

(** [msg.content = c; await msg.update()] *)
Definition Message_update (msg : nat) (c : string) : M unit :=
  fun st => (Ok (), set_messages <[msg := c]> st).

(** The keys that [cl.user_session.get] overwrites on every call. *)
Definition reserved_keys : list string :=
  ["id"; "env"; "chat_settings"; "user"; "chat_profile"; "client_type"].

Definition is_reserved (key : string) : bool :=
  bool_decide (key ∈ reserved_keys).

(** The entry of the session store under a key. *)
Definition user_session_lookup (st : state) (key : string) : option value :=
  if is_reserved key then reserved st !! key else user_session st !! key.

(** The six assignments [get] starts with: the fields of the Chainlit
    session are copied into the store. *)
Definition copy_session (s : context.session) (r : gmap string value)
    : gmap string value :=
  <["client_type" := context.client_type s]>
    (<["chat_profile" := context.chat_profile s]>
       (<["user" := context.user s]>
          (<["chat_settings" := context.chat_settings s]>
             (<["env" := context.user_env s]>
                (<["id" := context.id s]> r))))).

(** [cl.user_session.get(key)]: copies the session fields into the store,
    then reads the key; [None] when the key is not set. *)
Definition user_session_get (key : string) : M value :=
  fun st =>
    let st' := set_reserved (copy_session (context_session st)) st in
    (Ok (default VNone (user_session_lookup st' key)), st').

(** [cl.user_session.set(key, v)] *)
Definition user_session_set (key : string) (v : value) : M unit :=
  fun st =>
    (Ok (), if is_reserved key then set_reserved <[key := v]> st
            else set_user_session <[key := v]> st).

End cl.

(** ** The agents SDK *)

Module Runner.

Record RunResult := mkRunResult { final_output : string }.

(** How the remote orchestration call of one turn ends: it returns a
    result, or an exception comes out of it. *)
Inductive outcome :=
  | Returns (r : RunResult)
  | Raises (e : PyException).

(** [await Runner.run(starting_agent=..., input=..., run_config=...)].
    The call is recorded with the entries the input list holds at that
    point. The SDK reads the list it is given and leaves it as it is. *)
Definition run (o : outcome) (starting_agent input run_config : value)
    : M RunResult :=
  fun st =>
    let st' :=
      set_runs (λ rs, rs ++ [mkRunCall starting_agent input (deref st input)
                                       run_config]) st in
    match o with
    | Returns r => (Ok r, st')
    | Raises e => (Raise e, st')
    end.

End Runner.

(** ** The handlers *)

Definition welcome : string :=
  " HairCareOS – AI-Powered Multi-Agent System for Scalp & Hair Health".

(** [@cl.on_chat_start async def chat_start()] *)
Definition chat_start (gemini_api_key : string) : M unit :=
  let '(Orchestrator_agent, config) := Config.set_config gemini_api_key in
  empty ← new_list;
  cl.user_session_set "chat_history" empty;;
  cl.user_session_set "config" (VConfig config);;
  cl.user_session_set "Orchestrator_agent" (VAgent Orchestrator_agent);;
  cl.Message_send welcome;;
  ret ().

(** The local variables of [main] when it enters the [try] block. *)
Record locals := mkLocals {
  msg                : nat;
  Orchestrator_agent : value;
  config             : value;
  history            : value;
}.

(** [main], up to the [try] statement. [cast] does nothing at run time. *)
Definition main_setup (message : cl.Message) : M locals :=
  msg ← cl.Message_send "Thinking ...";
  Orchestrator_agent ← cl.user_session_get "Orchestrator_agent";
  config ← cl.user_session_get "config";
  stored ← cl.user_session_get "chat_history";
  history ← py_or stored new_list;
  append history (mkEntry "user" (cl.content message));;
  ret (mkLocals msg Orchestrator_agent config history).

(** The [try] statement of [main]. *)
Definition main_try (o : Runner.outcome) (message : cl.Message) (v : locals)
    : M unit :=
  try_except
    (fun st =>
       (print [PStr "
Calling_Agent_with_Context
"; PList (deref st (history v)); PStr "
"];;
        response ← Runner.run o (Orchestrator_agent v) (history v) (config v);
        let response_content := Runner.final_output response in
        cl.Message_update (msg v) response_content;;
        append (history v) (mkEntry "assistant" response_content);;
        cl.user_session_set "chat_history" (history v);;
        print [PStr ("User : " +:+ cl.content message)];;
        print [PStr ("Assistant : " +:+ response_content)]) st)
    (fun e =>
       cl.Message_update (msg v) ("Error : " +:+ str e);;
       print [PStr ("Error : " +:+ str e)]).

(** [@cl.on_message async def main(message)]; [o] is how the orchestration
    call of this turn ends. *)
Definition main (o : Runner.outcome) (message : cl.Message) : M unit :=
  v ← main_setup message;
  main_try o message v.

(** ** Sessions *)

(** The Chainlit session of a visitor who is not logged in and has chosen
    no environment, settings or profile. *)
Definition visitor : context.session :=
  context.mkSession (VOther (mkObject "str" true))
    (VOther (mkObject "dict" false)) (VOther (mkObject "dict" false))
    VNone VNone (VOther (mkObject "str" true)).

(** A session that has not started: nothing stored, nothing shown. *)
Definition new_session : state := mkState ∅ ∅ [] [] [] visitor ∅.

(** The list stored under ["chat_history"], when there is one. *)
Definition stored_history (st : state) : option (list entry) :=
  match user_session st !! "chat_history" with
  | Some (VList l) => heap st !! l
  | _ => None
  end.

(** The session's transcript: the entries of the stored list. *)
Definition transcript (st : state) : list entry :=
  default [] (stored_history st).

(** One message turn: the incoming message and how its orchestration call
    ends. *)
Definition turn : Type := cl.Message * Runner.outcome.

Definition handle (st : state) (t : turn) : state :=
  exec (main t.2 t.1) st.

(** A session: [chat_start], then the message turns in order. *)
Definition session (gemini_api_key : string) (turns : list turn) : state :=
  foldl handle (exec (chat_start gemini_api_key) new_session) turns.

Definition succeeds (message answer : string) : turn :=
  (cl.mkMessage message, Runner.Returns (Runner.mkRunResult answer)).

Definition fails (message : string) (e : PyException) : turn :=
  (cl.mkMessage message, Runner.Raises e).

(** ** Module initialisation *)

Section Startup.

(** What [load_dotenv(find_dotenv())] does to [os.environ] (python-dotenv,
    not part of this repository). *)
Variable load_dotenv : gmap string string → gmap string string.

(** [os.getenv(key)] *)
Definition os_getenv (environ : gmap string string) (key : string)
    : option string :=
  environ !! key.

(** Truth value of an optional string: [None] and [""] are false. *)
Definition truthy_str (v : option string) : bool :=
  match v with
  | None => false
  | Some s => negb (bool_decide (s = ""))
  end.

Definition ValueError (s : string) : PyException := mkException "ValueError" s.

(** The handlers Chainlit has been given by the decorators
    [@cl.on_chat_start] and [@cl.on_message]. *)
Record hooks := mkHooks {
  on_chat_start : option (M unit);
  on_message    : option (Runner.outcome → cl.Message → M unit);
}.

Definition no_hooks : hooks := mkHooks None None.

(** Running the module body top to bottom from the process environment:
    how it ends, and the handlers registered by then. *)
Definition import_main (environ : gmap string string) : PyResult () * hooks :=
  let environ := load_dotenv environ in
  let gemini_api_key := os_getenv environ "GEMINI_API_KEY" in
  if negb (truthy_str gemini_api_key) then
    (Raise (ValueError "Your Api key is not set please check the .env file."),
     no_hooks)
  else
    let key := default "" gemini_api_key in
    let registered := mkHooks (Some (chat_start key)) None in
    let registered := mkHooks (on_chat_start registered) (Some main) in
    (Ok (), registered).

End Startup.

(** * Vocabulary of the properties *)

Definition user_entry (message : cl.Message) : entry :=
  mkEntry "user" (cl.content message).

Definition assistant_entry (r : Runner.RunResult) : entry :=
  mkEntry "assistant" (Runner.final_output r).

(** The banner printed before the orchestration call. *)
Definition calling (h : list entry) : list print_arg :=
  [PStr "
Calling_Agent_with_Context
"; PList h; PStr "
"].

(** What the message of a turn shows when the handler is done: the final
    output, the error text, or still ["Thinking ..."] when an exception
    that is not an [Exception] went through the handler. *)
Definition shown (o : Runner.outcome) : string :=
  match o with
  | Runner.Returns r => Runner.final_output r
  | Runner.Raises e =>
      if isinstance_Exception e then "Error : " +:+ str e else "Thinking ..."
  end.

(** What a turn prints after the banner. *)
Definition logged (message : cl.Message) (o : Runner.outcome)
    : list (list print_arg) :=
  match o with
  | Runner.Returns r =>
      [[PStr ("User : " +:+ cl.content message)];
       [PStr ("Assistant : " +:+ Runner.final_output r)]]
  | Runner.Raises e =>
      if isinstance_Exception e then [[PStr ("Error : " +:+ str e)]] else []
  end.

(** How the handler ends on a turn: normally, or with the exception that
    its [except] clause does not catch. *)
Definition result_of (o : Runner.outcome) : PyResult () :=
  match o with
  | Runner.Returns _ => Ok ()
  | Runner.Raises e => if isinstance_Exception e then Ok () else Raise e
  end.

(** The reserved entries of the store once [cl.user_session.get] has been
    called. *)
Definition refreshed (st : state) : gmap string value :=
  cl.copy_session (context_session st) (reserved st).

(** A turn whose orchestration call returns. *)
Definition answered (qa : cl.Message * Runner.RunResult) : turn :=
  (qa.1, Runner.Returns qa.2).

(** The two entries a successful turn contributes. *)
Definition exchange (qa : cl.Message * Runner.RunResult) : list entry :=
  [user_entry qa.1; assistant_entry qa.2].

(** Does the turn's orchestration call return? *)
Definition answers (t : turn) : bool :=
  match t.2 with
  | Runner.Returns _ => true
  | Runner.Raises _ => false
  end.

(** The stored transcript after a turn, from the one before it. *)
Definition after_turn (h : list entry) (t : turn) : list entry :=
  match t.2 with
  | Runner.Returns r => h ++ [user_entry t.1; assistant_entry r]
  | Runner.Raises _ => match h with [] => [] | _ => h ++ [user_entry t.1] end
  end.

(** The stored transcript of a session, turn by turn. *)
Definition transcript_of (ts : list turn) : list entry :=
  foldl after_turn [] ts.

(** The transcript after a failed turn as the specification has it: the
    transcript before the turn with the user entry appended. *)
Definition failed_turn_keeps_user_entry
    (st : state) (message : cl.Message) (e : PyException) : Prop :=
  transcript (exec (main (Runner.Raises e) message) st) =
  transcript st ++ [user_entry message].

(** What a failed turn shows as the specification has it: the error
    text, whatever the exception. *)
Definition failed_turn_shows_error_text
    (st : state) (message : cl.Message) (e : PyException) : Prop :=
  messages (exec (main (Runner.Raises e) message) st) =
  messages st ++ ["Error : " +:+ str e].

(** The entries a turn adds to a transcript that is not empty: the user
    entry, and the assistant entry when the orchestration call returns. *)
Definition entries_of (t : turn) : list entry :=
  match t.2 with
  | Runner.Returns r => [user_entry t.1; assistant_entry r]
  | Runner.Raises _ => [user_entry t.1]
  end.

(** The turns of a session from its first successful one on. *)
Fixpoint from_first_answer (ts : list turn) : list turn :=
  match ts with
  | [] => []
  | t :: ts' => if answers t then ts else from_first_answer ts'
  end.

(** The results of the orchestration calls that returned, in order. *)
Definition outputs (ts : list turn) : list Runner.RunResult :=
  omap (λ t : turn, match t.2 with
                    | Runner.Returns r => Some r
                    | Runner.Raises _ => None
                    end) ts.

(** Two sessions started one after the other on the same heap, each with
    a session store of its own: the state of the second. *)
Definition second_session : state :=
  exec (chat_start "key")
    (set_reserved (λ _, ∅)
       (set_user_session (λ _, ∅) (exec (chat_start "key") new_session))).

(** * Properties *)

Lemma chat_history_not_reserved : cl.is_reserved "chat_history" = false.
Proof. reflexivity. Qed.

Lemma config_not_reserved : cl.is_reserved "config" = false.
Proof. reflexivity. Qed.

Lemma Orchestrator_agent_not_reserved :
  cl.is_reserved "Orchestrator_agent" = false.
Proof. reflexivity. Qed.

(** Unfolds the monadic operations down to state transformers. *)
Ltac step_handlers :=
  cbv beta iota zeta delta
    [mbind M_bind bind mret M_ret ret raise try_except exec
     cl.Message_send cl.Message_update cl.user_session_get
     cl.user_session_set cl.user_session_lookup
     py_or append print new_list Runner.run
     set_heap set_user_session set_messages set_runs set_console
     set_reserved heap user_session messages runs console
     context_session reserved deref truthy
     msg Orchestrator_agent config history fst snd];
  rewrite ?chat_history_not_reserved, ?config_not_reserved,
          ?Orchestrator_agent_not_reserved;
  cbv beta iota.

(** Copying the session fields twice is copying them once. *)
Lemma copy_session_idemp s r :
  cl.copy_session s (cl.copy_session s r) = cl.copy_session s r.
Proof.
  unfold cl.copy_session. apply map_eq. intros k.
  rewrite !lookup_insert. repeat case_decide; done.
Qed.

(** ** What one run of [main] does to the state *)

Section Steps.

Context (st : state) (message : cl.Message).

Let agent_ := default VNone (user_session st !! "Orchestrator_agent").
Let config_ := default VNone (user_session st !! "config").
Let thinking := messages st ++ ["Thinking ..."].

(** The stored list is not empty: [history] is that very list, and the
    user entry goes into it. *)
Lemma main_setup_shared l h :
  user_session st !! "chat_history" = Some (VList l) →
  heap st !! l = Some h → h ≠ [] →
  main_setup message st =
    (Ok (mkLocals (length (messages st)) agent_ config_ (VList l)),
     mkState (<[l := h ++ [user_entry message]]> (heap st)) (user_session st)
             thinking (runs st) (console st)
             (context_session st) (refreshed st)).
Proof.
  intros Hs Hl Hh. subst agent_ config_ thinking. unfold refreshed.
  destruct st as [hp us ms rs cs ctx rv]; simpl in *.
  unfold main_setup. step_handlers.
  rewrite Hs; simpl. rewrite (lookup_total_correct _ _ _ Hl).
  destruct h; [done|]. simpl.
  rewrite (lookup_total_correct _ _ _ Hl), !copy_session_idemp. reflexivity.
Qed.

(** The stored list is empty: [history] is a new list, and the user entry
    goes into that one. *)
Lemma main_setup_fresh l :
  user_session st !! "chat_history" = Some (VList l) →
  heap st !! l = Some [] →
  main_setup message st =
    (Ok (mkLocals (length (messages st)) agent_ config_
                  (VList (fresh (dom (heap st))))),
     mkState (<[fresh (dom (heap st)) := [user_entry message]]> (heap st))
             (user_session st) thinking (runs st) (console st)
             (context_session st) (refreshed st)).
Proof.
  intros Hs Hl. subst agent_ config_ thinking. unfold refreshed.
  destruct st as [hp us ms rs cs ctx rv]; simpl in *.
  unfold main_setup. step_handlers.
  rewrite Hs; simpl. rewrite (lookup_total_correct _ _ _ Hl).
  rewrite lookup_total_insert_eq, insert_insert_eq, !copy_session_idemp.
  reflexivity.
Qed.

End Steps.

Section Try.

Context (st : state) (message : cl.Message) (v : locals).

Let call := mkRunCall (Orchestrator_agent v) (history v)
                      (deref st (history v)) (config v).

(** An exception comes out of the orchestration call: the [except] clause
    catches it when it is an [Exception], and then the handler only
    touches the message shown and the console; otherwise the exception
    goes on. *)
Lemma main_try_raises e :
  main_try (Runner.Raises e) message v st =
    (result_of (Runner.Raises e),
     mkState (heap st) (user_session st)
       (if isinstance_Exception e
        then <[msg v := "Error : " +:+ str e]> (messages st)
        else messages st)
       (runs st ++ [call])
       (console st ++
          calling (deref st (history v)) :: logged message (Runner.Raises e))
       (context_session st) (reserved st)).
Proof.
  subst call. destruct st as [hp us ms rs cs ctx rv], v as [i a c hv].
  unfold main_try, result_of, logged, calling. step_handlers.
  destruct (isinstance_Exception e); [|reflexivity].
  rewrite <- (assoc_L (++)). reflexivity.
Qed.

(** The orchestration call returns: the answer is shown, appended to
    [history], and [history] is stored. *)
Lemma main_try_returns r l :
  history v = VList l →
  main_try (Runner.Returns r) message v st =
    (Ok (),
     mkState (<[l := heap st !!! l ++ [assistant_entry r]]> (heap st))
       (<["chat_history" := VList l]> (user_session st))
       (<[msg v := Runner.final_output r]> (messages st))
       (runs st ++ [call])
       (console st ++
          calling (deref st (history v)) :: logged message (Runner.Returns r))
       (context_session st) (reserved st)).
Proof.
  subst call. destruct st as [hp us ms rs cs ctx rv], v as [i a c hv].
  simpl. intros ->.
  unfold main_try, logged, calling. step_handlers.
  rewrite <- !(assoc_L (++)). reflexivity.
Qed.

End Try.

Lemma update_sent (ms : list string) (c c' : string) :
  <[length ms := c']> (ms ++ [c]) = ms ++ [c'].
Proof.
  rewrite insert_app_r_alt by lia. by rewrite Nat.sub_diag.
Qed.

Lemma stored_history_Some st h :
  stored_history st = Some h ↔
  ∃ l, user_session st !! "chat_history" = Some (VList l) ∧
       heap st !! l = Some h.
Proof.
  unfold stored_history. split.
  - destruct (user_session st !! "chat_history") as [[]|]; naive_solver.
  - intros (l & -> & ->). done.
Qed.

Section Turn.

Context (st : state) (message : cl.Message) (l : loc) (h : list entry).
Hypothesis Hstored : user_session st !! "chat_history" = Some (VList l).
Hypothesis Hlist : heap st !! l = Some h.

Let agent_ := default VNone (user_session st !! "Orchestrator_agent").
Let config_ := default VNone (user_session st !! "config").
Let u := user_entry message.
Let l' := fresh (dom (heap st)).

Lemma fresh_not_stored : l' ≠ l.
Proof.
  subst l'. intros E. apply (is_fresh (dom (heap st))).
  rewrite E. apply elem_of_dom. eauto.
Qed.

Lemma shown_raises ms e :
  (if isinstance_Exception e
   then <[length ms := "Error : " +:+ str e]> (ms ++ ["Thinking ..."])
   else ms ++ ["Thinking ..."]) = ms ++ [shown (Runner.Raises e)].
Proof.
  unfold shown. destruct (isinstance_Exception e); [|done].
  apply update_sent.
Qed.

Lemma main_raises_shared e :
  h ≠ [] →
  main (Runner.Raises e) message st =
    (result_of (Runner.Raises e),
     mkState (<[l := h ++ [u]]> (heap st)) (user_session st)
       (messages st ++ [shown (Runner.Raises e)])
       (runs st ++ [mkRunCall agent_ (VList l) (h ++ [u]) config_])
       (console st ++ calling (h ++ [u]) :: logged message (Runner.Raises e))
       (context_session st) (refreshed st)).
Proof.
  intros Hne. unfold main, mbind, M_bind, bind.
  rewrite (main_setup_shared _ _ _ _ Hstored Hlist Hne).
  rewrite main_try_raises. simpl.
  by rewrite shown_raises, !lookup_total_insert_eq.
Qed.

Lemma main_raises_fresh e :
  h = [] →
  main (Runner.Raises e) message st =
    (result_of (Runner.Raises e),
     mkState (<[l' := [u]]> (heap st)) (user_session st)
       (messages st ++ [shown (Runner.Raises e)])
       (runs st ++ [mkRunCall agent_ (VList l') [u] config_])
       (console st ++ calling [u] :: logged message (Runner.Raises e))
       (context_session st) (refreshed st)).
Proof.
  intros ->. unfold main, mbind, M_bind, bind.
  rewrite (main_setup_fresh _ _ _ Hstored Hlist).
  rewrite main_try_raises. simpl.
  by rewrite shown_raises, !lookup_total_insert_eq.
Qed.

Lemma main_returns_shared r :
  h ≠ [] →
  main (Runner.Returns r) message st =
    (Ok (),
     mkState (<[l := h ++ [u; assistant_entry r]]> (heap st))
       (<["chat_history" := VList l]> (user_session st))
       (messages st ++ [Runner.final_output r])
       (runs st ++ [mkRunCall agent_ (VList l) (h ++ [u]) config_])
       (console st ++ calling (h ++ [u]) :: logged message (Runner.Returns r))
       (context_session st) (refreshed st)).
Proof.
  intros Hne. unfold main, mbind, M_bind, bind.
  rewrite (main_setup_shared _ _ _ _ Hstored Hlist Hne).
  rewrite (main_try_returns _ _ _ _ l) by done. simpl.
  rewrite update_sent, !lookup_total_insert_eq, insert_insert_eq.
  by rewrite <- (assoc_L (++)).
Qed.

Lemma main_returns_fresh r :
  h = [] →
  main (Runner.Returns r) message st =
    (Ok (),
     mkState (<[l' := [u; assistant_entry r]]> (heap st))
       (<["chat_history" := VList l']> (user_session st))
       (messages st ++ [Runner.final_output r])
       (runs st ++ [mkRunCall agent_ (VList l') [u] config_])
       (console st ++ calling [u] :: logged message (Runner.Returns r))
       (context_session st) (refreshed st)).
Proof.
  intros ->. unfold main, mbind, M_bind, bind.
  rewrite (main_setup_fresh _ _ _ Hstored Hlist).
  rewrite (main_try_returns _ _ _ _ l') by done. simpl.
  by rewrite update_sent, !lookup_total_insert_eq, insert_insert_eq.
Qed.

End Turn.

(** One turn, component by component, from any state that stores a list. *)
Lemma handle_spec st t h :
  stored_history st = Some h →
  stored_history (handle st t) = Some (after_turn h t) ∧
  user_session (handle st t) !! "config" = user_session st !! "config" ∧
  user_session (handle st t) !! "Orchestrator_agent" =
    user_session st !! "Orchestrator_agent" ∧
  messages (handle st t) = messages st ++ [shown t.2] ∧
  ∃ hv, runs (handle st t) =
    runs st ++ [mkRunCall (default VNone (user_session st !! "Orchestrator_agent"))
                          hv (h ++ [user_entry t.1])
                          (default VNone (user_session st !! "config"))].
Proof.
  intros (l & Hs & Hl)%stored_history_Some.
  destruct t as [m [r|e]]; unfold handle, exec, after_turn; simpl;
    destruct (decide (h = [])) as [E|E].
  - rewrite (main_returns_fresh _ _ _ _ Hs Hl _ E); subst h.
    unfold stored_history; simpl. rewrite !lookup_insert_eq.
    rewrite !lookup_insert_ne by done. eauto 10.
  - rewrite (main_returns_shared _ _ _ _ Hs Hl _ E).
    unfold stored_history; simpl. rewrite !lookup_insert_eq.
    rewrite !lookup_insert_ne by done. eauto 10.
  - rewrite (main_raises_fresh _ _ _ _ Hs Hl _ E); subst h.
    unfold stored_history; simpl. rewrite Hs.
    rewrite lookup_insert_ne by (eapply fresh_not_stored; eauto). eauto 10.
  - rewrite (main_raises_shared _ _ _ _ Hs Hl _ E).
    unfold stored_history; simpl. rewrite Hs, lookup_insert_eq.
    destruct h; [done|]. eauto 10.
Qed.

(** ** What [chat_start] does to the state *)

Lemma chat_start_spec key st :
  exec (chat_start key) st =
    mkState (<[fresh (dom (heap st)) := []]> (heap st))
      (<["Orchestrator_agent" := VAgent (Config.Orchestrator_agent key)]>
         (<["config" := VConfig (Config.config key)]>
            (<["chat_history" := VList (fresh (dom (heap st)))]>
               (user_session st))))
      (messages st ++ [welcome]) (runs st) (console st)
      (context_session st) (reserved st).
Proof. destruct st. reflexivity. Qed.

(** ** Whole sessions *)

Lemma session_snoc key ts t :
  session key (ts ++ [t]) = handle (session key ts) t.
Proof. unfold session. by rewrite foldl_snoc. Qed.

(** Every state of a session stores a list, the configuration and the
    orchestrator built when it started. *)
Lemma session_spec key ts :
  stored_history (session key ts) = Some (transcript_of ts) ∧
  user_session (session key ts) !! "config" =
    Some (VConfig (Config.config key)) ∧
  user_session (session key ts) !! "Orchestrator_agent" =
    Some (VAgent (Config.Orchestrator_agent key)).
Proof.
  induction ts as [|t ts IH] using rev_ind.
  - unfold session; simpl. rewrite chat_start_spec.
    unfold stored_history; simpl.
    rewrite !lookup_insert_ne by done. by rewrite !lookup_insert_eq.
  - destruct IH as (Hh & Hc & Ha). rewrite session_snoc.
    destruct (handle_spec _ t _ Hh) as (-> & -> & -> & _).
    unfold transcript_of. by rewrite foldl_snoc.
Qed.

Lemma transcript_session key ts :
  transcript (session key ts) = transcript_of ts.
Proof. unfold transcript. by rewrite (proj1 (session_spec key ts)). Qed.

Lemma transcript_of_answered qas :
  transcript_of (answered <$> qas) = qas ≫= exchange.
Proof.
  unfold transcript_of.
  induction qas as [|qa qas IH] using rev_ind; [done|].
  rewrite fmap_app. change (answered <$> [qa]) with [answered qa].
  rewrite foldl_snoc, IH, bind_app. reflexivity.
Qed.

Lemma length_exchanges qas : length (qas ≫= exchange) = 2 * length qas.
Proof.
  induction qas as [|qa qas IH]; [done|].
  rewrite bind_cons, length_app, IH; simpl. lia.
Qed.

Lemma roles_exchanges qas :
  role <$> (qas ≫= exchange) =
  mjoin (replicate (length qas) ["user"; "assistant"]).
Proof.
  induction qas as [|qa qas IH]; [done|].
  by rewrite bind_cons, fmap_app, IH.
Qed.

(** ** Message turns that succeed *)

(** C2. After [chat_start] and N message turns whose orchestration calls
    all return, the stored transcript is exactly the N exchanges in order:
    for each turn the user entry holding the incoming message followed by
    the assistant entry holding the final output. It has 2N entries and
    its roles read user, assistant, user, assistant, ... *)
Theorem successful_turns_alternate
    (key : string) (qas : list (cl.Message * Runner.RunResult)) :
  let tr := transcript (session key (answered <$> qas)) in
  tr = qas ≫= exchange ∧
  length tr = 2 * length qas ∧
  role <$> tr = mjoin (replicate (length qas) ["user"; "assistant"]).
Proof.
  simpl. rewrite transcript_session, transcript_of_answered.
  auto using length_exchanges, roles_exchanges.
Qed.

(** ** Message turns that fail *)

(** C1. The failing input: the first turn of a session fails. The stored
    list is still empty, so [history] is a new list, the user entry goes
    into that one and the failing turn never stores it: the stored
    transcript is not the transcript before the turn with the user entry
    appended. *)
Lemma first_turn_failure_stores_nothing :
  ¬ failed_turn_keeps_user_entry (session "key" []) (cl.mkMessage "hi")
      (mkException "RuntimeError" "boom").
Proof. unfold failed_turn_keeps_user_entry. vm_compute. discriminate. Qed.

(** C5, as stated, fails for an exception that is not an [Exception]: the
    [except] clause lets [asyncio.CancelledError] through, and the message
    still shows ["Thinking ..."]. *)
Lemma cancelled_turn_keeps_thinking :
  ¬ failed_turn_shows_error_text (session "key" []) (cl.mkMessage "hi")
      (mkException "CancelledError" "").
Proof. unfold failed_turn_shows_error_text. vm_compute. discriminate. Qed.

(** C5, amended. When the orchestration call raises an instance [e] of
    [Exception], the message that showed ["Thinking ..."] shows
    ["Error : "] followed by [str(e)] instead, and nothing else is
    shown. *)
Theorem failed_turn_shows_error
    (st : state) (message : cl.Message) (e : PyException) (h : list entry) :
  stored_history st = Some h →
  isinstance_Exception e = true →
  messages (exec (main (Runner.Raises e) message) st) =
  messages st ++ ["Error : " +:+ str e].
Proof.
  intros Hh He.
  destruct (handle_spec st (message, Runner.Raises e) h Hh)
    as (_ & _ & _ & Hshown & _).
  simpl in Hshown. by rewrite He in Hshown.
Qed.

Lemma failed_turn_shows_error_witness :
  stored_history (session "key" []) = Some [] ∧
  isinstance_Exception (mkException "TimeoutError" "timed out") = true ∧
  messages
    (exec (main (Runner.Raises (mkException "TimeoutError" "timed out"))
                (cl.mkMessage "hi")) (session "key" [])) =
  messages (session "key" []) ++ ["Error : timed out"].
Proof.
  split; [vm_compute; reflexivity|]. split; [vm_compute; reflexivity|].
  apply (failed_turn_shows_error (session "key" []) (cl.mkMessage "hi")
           (mkException "TimeoutError" "timed out") []).
  - vm_compute; reflexivity.
  - vm_compute; reflexivity.
Defined.

(** ** What the orchestration call is given *)

(** C3. Every message turn makes exactly one orchestration call, with the
    orchestrator and the configuration stored in the session and, as
    input, the stored transcript with the turn's user entry appended: the
    same entries in the same order, nothing dropped, reordered or
    rewritten. *)
Theorem run_input_forwarded
    (st : state) (o : Runner.outcome) (message : cl.Message)
    (h : list entry) :
  stored_history st = Some h →
  ∃ hv, runs (exec (main o message) st) =
    runs st ++
    [mkRunCall (default VNone (user_session st !! "Orchestrator_agent"))
               hv (h ++ [user_entry message])
               (default VNone (user_session st !! "config"))].
Proof.
  intros Hh.
  by destruct (handle_spec st (message, o) h Hh) as (_ & _ & _ & _ & Hruns).
Qed.

Lemma run_input_forwarded_witness :
  stored_history (session "key" [succeeds "hi" "hello"]) =
    Some [mkEntry "user" "hi"; mkEntry "assistant" "hello"] ∧
  ∃ hv,
    runs (exec (main (Runner.Returns (Runner.mkRunResult "fine"))
                     (cl.mkMessage "again"))
               (session "key" [succeeds "hi" "hello"])) =
    runs (session "key" [succeeds "hi" "hello"]) ++
    [mkRunCall (VAgent (Config.Orchestrator_agent "key")) hv
       [mkEntry "user" "hi"; mkEntry "assistant" "hello";
        mkEntry "user" "again"]
       (VConfig (Config.config "key"))].
Proof.
  split; [vm_compute; reflexivity|].
  apply (run_input_forwarded
           (session "key" [succeeds "hi" "hello"])
           (Runner.Returns (Runner.mkRunResult "fine"))
           (cl.mkMessage "again")
           [mkEntry "user" "hi"; mkEntry "assistant" "hello"]).
  vm_compute; reflexivity.
Defined.

(** ** The transcript only grows *)

Lemma after_turn_prefix h t : h `prefix_of` after_turn h t.
Proof.
  unfold after_turn. destruct t.2; [by eexists|].
  destruct h; [done|by eexists].
Qed.

Lemma handle_prefix st t : transcript st `prefix_of` transcript (handle st t).
Proof.
  unfold transcript at 1. destruct (stored_history st) as [h|] eqn:Hh.
  - unfold transcript. rewrite (proj1 (handle_spec st t h Hh)).
    apply after_turn_prefix.
  - apply prefix_nil.
Qed.

Lemma session_app key ts1 ts2 :
  session key (ts1 ++ ts2) = foldl handle (session key ts1) ts2.
Proof. unfold session. by rewrite foldl_app. Qed.

(** C7. Within a session the stored transcript is append-only. Session
    start finds no entries and leaves an empty transcript; a message turn,
    whether its orchestration call returns or raises, leaves every entry
    stored before it in place and unchanged and only adds entries after
    them; hence the transcript at any point of a session is a prefix of
    the transcript at any later point. *)
Theorem transcript_append_only
    (key : string) (st : state) (t : turn) (ts1 ts2 : list turn) :
  transcript new_session `prefix_of`
    transcript (exec (chat_start key) new_session) ∧
  transcript st `prefix_of` transcript (handle st t) ∧
  transcript (session key ts1) `prefix_of`
    transcript (session key (ts1 ++ ts2)).
Proof.
  split; [apply prefix_nil|]. split; [apply handle_prefix|].
  rewrite session_app. generalize (session key ts1) as s.
  induction ts2 as [|t' ts2 IH]; intros s; simpl; [done|].
  etrans; [apply handle_prefix|apply IH].
Qed.

(** ** The run configuration of a session *)

Lemma session_runs key ts :
  length (runs (session key ts)) = length ts ∧
  Forall (λ c, starting_agent c = VAgent (Config.Orchestrator_agent key) ∧
               run_config c = VConfig (Config.config key))
         (runs (session key ts)).
Proof.
  induction ts as [|t ts [IHlen IH]] using rev_ind.
  - change (session key []) with (exec (chat_start key) new_session).
    by rewrite chat_start_spec.
  - destruct (session_spec key ts) as (Hh & Hc & Ha).
    rewrite session_snoc.
    destruct (handle_spec _ t _ Hh) as (_ & _ & _ & _ & hv & ->).
    rewrite Hc, Ha, !length_app, IHlen. split; [done|].
    apply Forall_app. split; [done|]. by repeat constructor.
Qed.

(** C8. The run configuration built when the session starts binds the
    model and the model provider and has tracing disabled; after any
    number of message turns, successful or not, it is still the
    configuration stored in the session, and each of the orchestration
    calls made (one per turn) was given exactly it. *)
Theorem run_config_unchanged (key : string) (ts : list turn) :
  let cfg := (Config.set_config key).2 in
  model cfg = Config.model key ∧
  model_provider cfg = Config.client key ∧
  tracing_disabled cfg = true ∧
  user_session (session key ts) !! "config" = Some (VConfig cfg) ∧
  length (runs (session key ts)) = length ts ∧
  Forall (λ c, run_config c = VConfig cfg) (runs (session key ts)).
Proof.
  simpl. destruct (session_spec key ts) as (_ & Hc & _).
  destruct (session_runs key ts) as [Hlen Hall].
  repeat split; try done.
  eapply Forall_impl; [exact Hall|]. by intros c [_ ?].
Qed.

(** ** Session start *)

(** C9. [chat_start] stores a new, empty list as the transcript, stores
    the orchestrator and the run configuration that this call of
    [set_config] built, and sends one message, the same welcome text
    whatever the key and the state. *)
Theorem chat_start_initialises (key : string) (st : state) :
  let st' := exec (chat_start key) st in
  (chat_start key st).1 = Ok () ∧
  (∃ l, user_session st' !! "chat_history" = Some (VList l) ∧
        (l ∉ dom (heap st)) ∧ heap st' !! l = Some []) ∧
  transcript st' = [] ∧
  user_session st' !! "Orchestrator_agent" =
    Some (VAgent (Config.set_config key).1) ∧
  user_session st' !! "config" = Some (VConfig (Config.set_config key).2) ∧
  messages st' = messages st ++ [welcome].
Proof.
  simpl. rewrite chat_start_spec. unfold transcript, stored_history; simpl.
  split; [by destruct st|].
  split; [|by simplify_map_eq].
  exists (fresh (dom (heap st))).
  split; [by simplify_map_eq|]. split; [apply is_fresh|by simplify_map_eq].
Qed.

(** ** Failed turns and the shared list *)

Lemma after_turn_nil h t :
  after_turn h t = [] ↔ h = [] ∧ answers t = false.
Proof.
  unfold after_turn, answers. destruct t.2.
  - split; [intros [? ?]%app_eq_nil|intros [_ ?]]; done.
  - destruct h; [done|].
    split; [intros [? ?]%app_eq_nil|intros [? _]]; done.
Qed.

Lemma transcript_of_nil ts :
  transcript_of ts = [] ↔ existsb answers ts = false.
Proof.
  unfold transcript_of. induction ts as [|t ts IH] using rev_ind; [done|].
  rewrite foldl_snoc, after_turn_nil, IH, existsb_app; simpl.
  rewrite orb_false_r. symmetry. apply orb_false_iff.
Qed.

(** C10. A failing turn never calls [set] on the session store. When no turn
    of the session has succeeded so far (in particular on the first turn)
    the stored list is empty, so the list given to the orchestration call
    is a new one, not the stored one: it holds the user entry, and the
    stored transcript stays empty. When some earlier turn has succeeded,
    the list given to the call is the stored list itself, so the user
    entry appended to it stays in the stored transcript. *)
Theorem failed_turn_persistence
    (key : string) (ts : list turn) (message : cl.Message) (e : PyException) :
  let st := session key ts in
  let st' := exec (main (Runner.Raises e) message) st in
  let given := input <$> last (runs st') in
  user_session st' = user_session st ∧
  deref st' <$> given = Some (transcript st ++ [user_entry message]) ∧
  if existsb answers ts then
    given = user_session st' !! "chat_history" ∧
    transcript st' = transcript st ++ [user_entry message]
  else
    given ≠ user_session st' !! "chat_history" ∧
    transcript st' = [].
Proof.
  simpl. rewrite transcript_session.
  destruct (session_spec key ts) as (Hh & _).
  pose proof (transcript_of_nil ts) as Hnil.
  apply stored_history_Some in Hh as (l & Hs & Hl).
  destruct (existsb answers ts).
  - assert (transcript_of ts ≠ []) as Hne by (intros ?%Hnil; done).
    unfold handle, exec; rewrite (main_raises_shared _ _ _ _ Hs Hl _ Hne).
    unfold transcript, stored_history; simpl.
    rewrite last_snoc, Hs; simpl. by rewrite lookup_total_insert_eq, lookup_insert_eq.
  - assert (transcript_of ts = []) as Hemp by (by apply Hnil).
    unfold handle, exec; rewrite (main_raises_fresh _ _ _ _ Hs Hl _ Hemp).
    assert (fresh (dom (heap (session key ts))) ≠ l) as Hfresh
      by (eapply fresh_not_stored; eauto).
    unfold transcript, stored_history; simpl.
    rewrite last_snoc, Hs, Hemp; simpl.
    rewrite lookup_total_insert_eq, lookup_insert_ne, Hl, <- Hemp by done.
    repeat split; try done. congruence.
Qed.

(** ** The specialist tools *)

(** C6. [set_config] wraps five specialists as tools, the five tools of
    the orchestrator; their tool names are pairwise distinct and none is
    empty. *)
Theorem tool_names_unique (key : string) :
  let names := tool_name <$> tools (Config.set_config key).1 in
  length names = 5 ∧ NoDup names ∧ Forall (λ n, n ≠ "") names.
Proof.
  simpl. split; [done|]. split.
  - apply (bool_decide_unpack _). vm_compute. exact I.
  - repeat constructor; discriminate.
Qed.

(** ** Start-up without a key *)

(** C4. If [GEMINI_API_KEY] is missing from the environment, or is the
    empty string, when the module reads it (that is, in the process
    environment as [load_dotenv] leaves it), running the module raises
    [ValueError] before either handler has been registered. *)
Theorem missing_key_fails_fast
    (load_dotenv : gmap string string → gmap string string)
    (environ : gmap string string) :
  os_getenv (load_dotenv environ) "GEMINI_API_KEY" = None ∨
  os_getenv (load_dotenv environ) "GEMINI_API_KEY" = Some "" →
  import_main load_dotenv environ =
    (Raise (ValueError "Your Api key is not set please check the .env file."),
     mkHooks None None).
Proof.
  unfold import_main. by intros [-> | ->].
Qed.

Lemma missing_key_fails_fast_witness :
  (os_getenv (id ∅) "GEMINI_API_KEY" = None ∨
   os_getenv (id ∅) "GEMINI_API_KEY" = Some "") ∧
  import_main id ∅ =
    (Raise (ValueError "Your Api key is not set please check the .env file."),
     mkHooks None None).
Proof.
  split; [left; reflexivity|].
  apply (missing_key_fails_fast id ∅). left; reflexivity.
Defined.

(** * Further properties of the handlers *)

(** ** The transcript of any session *)

Lemma entries_of_after_turn h t :
  h ≠ [] → after_turn h t = h ++ entries_of t.
Proof.
  intros Hne. unfold after_turn, entries_of.
  destruct t.2; [done|]. by destruct h.
Qed.

Lemma foldl_after_turn h ts :
  h ≠ [] → foldl after_turn h ts = h ++ (ts ≫= entries_of).
Proof.
  revert h. induction ts as [|t ts IH]; intros h Hne; simpl.
  - by rewrite (right_id_L [] (++)).
  - rewrite entries_of_after_turn by done.
    rewrite IH by (by intros [? _]%app_eq_nil).
    by rewrite <- (assoc_L (++)).
Qed.

Lemma transcript_of_closed ts :
  transcript_of ts = from_first_answer ts ≫= entries_of.
Proof.
  unfold transcript_of. induction ts as [|t ts IH]; [done|].
  simpl. destruct (answers t) eqn:Ha.
  - assert (after_turn [] t = entries_of t) as ->.
    { unfold after_turn, entries_of, answers in *. by destruct t.2. }
    rewrite foldl_after_turn; [done|].
    unfold entries_of. by destruct t.2.
  - assert (after_turn [] t = []) as ->; [|done].
    apply after_turn_nil. done.
Qed.

(** X1. The stored transcript of a session, whatever happened in it: the
    turns before the first successful one leave nothing; from the first
    successful turn on, every turn leaves its user entry, followed by its
    assistant entry when its orchestration call returned. *)
Theorem session_transcript_closed_form (key : string) (ts : list turn) :
  transcript (session key ts) = from_first_answer ts ≫= entries_of.
Proof. by rewrite transcript_session, transcript_of_closed. Qed.

Lemma outputs_from_first_answer ts :
  outputs (from_first_answer ts) = outputs ts.
Proof.
  induction ts as [|t ts IH]; [done|]. simpl.
  destruct (answers t) eqn:Ha; [done|].
  rewrite IH. unfold outputs, answers in *. simpl. by destruct t.2.
Qed.

Lemma entries_by_role ts :
  filter (λ x, role x = "assistant") (ts ≫= entries_of) =
    assistant_entry <$> outputs ts ∧
  filter (λ x, role x = "user") (ts ≫= entries_of) =
    user_entry <$> ts.*1.
Proof.
  induction ts as [|t ts [IHa IHu]]; [done|].
  rewrite bind_cons, !filter_app, IHa, IHu.
  unfold entries_of, outputs. simpl. by destruct t.2.
Qed.

(** X2. In the stored transcript of any session, the assistant entries are
    the final outputs of the turns whose orchestration call returned, in
    order, and the user entries are the messages of the turns from the
    first successful one on, in order: messages sent before any turn has
    succeeded are not kept. *)
Theorem session_transcript_by_role (key : string) (ts : list turn) :
  let tr := transcript (session key ts) in
  filter (λ x, role x = "assistant") tr = assistant_entry <$> outputs ts ∧
  filter (λ x, role x = "user") tr =
    user_entry <$> (from_first_answer ts).*1.
Proof.
  simpl. rewrite session_transcript_closed_form.
  destruct (entries_by_role (from_first_answer ts)) as [-> ->].
  by rewrite outputs_from_first_answer.
Qed.

(** X3. A turn that fails and the turn that retries: when some earlier turn
    of the session has succeeded, the failed message stays in the
    transcript as a user entry without an answer, directly followed by
    the user entry of the retry; when none has, the retry starts the
    transcript. *)
Theorem retry_after_failure
    (key : string) (ts : list turn) (message retry : cl.Message)
    (e : PyException) (r : Runner.RunResult) :
  transcript
    (session key (ts ++ [(message, Runner.Raises e);
                         (retry, Runner.Returns r)])) =
  if existsb answers ts then
    transcript (session key ts) ++
      [user_entry message; user_entry retry; assistant_entry r]
  else [user_entry retry; assistant_entry r].
Proof.
  rewrite !transcript_session. unfold transcript_of.
  rewrite foldl_app. fold (transcript_of ts).
  pose proof (transcript_of_nil ts) as Hnil.
  destruct (existsb answers ts).
  - assert (transcript_of ts ≠ []) as Hne by (intros ?%Hnil; done).
    rewrite foldl_after_turn by done. done.
  - by rewrite (proj2 Hnil).
Qed.

(** ** What a session shows *)

(** X4. The chat of a session shows the welcome text and then one message per
    turn: the final output when the orchestration call returned, the
    error text when it raised an [Exception], and still ["Thinking ..."]
    when an exception that is not an [Exception] went through the
    handler. *)
Theorem session_messages (key : string) (ts : list turn) :
  messages (session key ts) = welcome :: (shown <$> ts.*2).
Proof.
  induction ts as [|t ts IH] using rev_ind.
  - change (session key []) with (exec (chat_start key) new_session).
    by rewrite chat_start_spec.
  - destruct (session_spec key ts) as (Hh & _).
    rewrite session_snoc.
    destruct (handle_spec _ t _ Hh) as (_ & _ & _ & -> & _).
    by rewrite IH, !fmap_app.
Qed.

(** ** The handler returns *)

Lemma main_result st o message h :
  stored_history st = Some h → (main o message st).1 = result_of o.
Proof.
  intros (l & Hs & Hl)%stored_history_Some.
  destruct (decide (h = [])) as [E|E]; destruct o.
  - by rewrite (main_returns_fresh _ _ _ _ Hs Hl _ E).
  - by rewrite (main_raises_fresh _ _ _ _ Hs Hl _ E).
  - by rewrite (main_returns_shared _ _ _ _ Hs Hl _ E).
  - by rewrite (main_raises_shared _ _ _ _ Hs Hl _ E).
Qed.

(** X5. In a session that has started, the message handler returns normally
    when the orchestration call returns and when it raises an
    [Exception], which the [except] clause catches; an exception that is
    not an [Exception] leaves the handler. *)
Theorem handler_catches_exceptions
    (key : string) (ts : list turn) (o : Runner.outcome)
    (message : cl.Message) :
  (main o message (session key ts)).1 =
  match o with
  | Runner.Returns _ => Ok ()
  | Runner.Raises e => if isinstance_Exception e then Ok () else Raise e
  end.
Proof.
  destruct (session_spec key ts) as (Hh & _).
  by eapply main_result.
Qed.

(** ** The orchestrator of a session *)

(** X6. After any number of turns the session still stores the orchestrator
    built when it started, and every orchestration call of the session
    was started on it. *)
Theorem orchestrator_unchanged (key : string) (ts : list turn) :
  user_session (session key ts) !! "Orchestrator_agent" =
    Some (VAgent (Config.set_config key).1) ∧
  Forall (λ c, starting_agent c = VAgent (Config.set_config key).1)
         (runs (session key ts)).
Proof.
  destruct (session_spec key ts) as (_ & _ & Ha).
  destruct (session_runs key ts) as [_ Hall].
  split; [done|]. eapply Forall_impl; [exact Hall|]. by intros c [? _].
Qed.

(** ** What a message turn leaves alone *)

(** X7. A message turn, from any state and however it ends, leaves every
    entry of the session store as it was, except the one under
    ["chat_history"] and those under the six reserved keys, which
    [cl.user_session.get] overwrites with the fields of the Chainlit
    session. *)
Theorem turn_writes_only_chat_history
    (st : state) (t : turn) (k : string) :
  k ≠ "chat_history" →
  cl.user_session_lookup (handle st t) k =
  if cl.is_reserved k
  then cl.copy_session (context_session st) (reserved st) !! k
  else cl.user_session_lookup st k.
Proof.
  intros Hk. destruct st as [hp us ms rs cs ctx rv], t as [m o].
  unfold cl.user_session_lookup, handle, main, main_setup, main_try.
  step_handlers. rewrite !copy_session_idemp.
  destruct (us !! "chat_history") as [[|l0| | |[ty []]]|] eqn:Hs; simpl.
  all: try (destruct (hp !!! l0) as [|x0 xs]); destruct o as [r|e]; simpl.
  all: try (destruct (isinstance_Exception e)); simpl.
  all: destruct (cl.is_reserved k); by simplify_map_eq.
Qed.

Lemma turn_writes_only_chat_history_witness :
  "config" ≠ "chat_history" ∧
  cl.user_session_lookup
    (handle (session "key" []) (succeeds "hi" "hello")) "config" =
  cl.user_session_lookup (session "key" []) "config".
Proof.
  split; [done|].
  by apply (turn_writes_only_chat_history
              (session "key" []) (succeeds "hi" "hello") "config").
Defined.

(** X8. A message turn, from any state and however it ends, leaves every
    list object other than the one stored under ["chat_history"] as it
    is: it appends to the stored list or to a list it has just made. *)
Theorem turn_mutates_only_stored_list
    (st : state) (t : turn) (l : loc) (h : list entry) :
  heap st !! l = Some h →
  user_session st !! "chat_history" ≠ Some (VList l) →
  heap (handle st t) !! l = Some h.
Proof.
  intros Hl Hk. destruct st as [hp us ms rs cs ctx rv], t as [m o].
  simpl in *.
  assert (fresh (dom hp) ≠ l) as Hf.
  { intros E. apply (is_fresh (dom hp)). rewrite E. apply elem_of_dom. eauto. }
  unfold handle, main, main_setup, main_try. step_handlers.
  destruct (us !! "chat_history") as [[|l0| | |[ty []]]|] eqn:Hs; simpl.
  all: try (destruct (hp !!! l0) as [|x0 xs]); destruct o as [r|e]; simpl.
  all: try (destruct (isinstance_Exception e)); simpl.
  all: rewrite ?lookup_insert_ne; try done; try congruence.
Qed.

Lemma turn_mutates_only_stored_list_witness :
  heap second_session !! 1%positive = Some [] ∧
  user_session second_session !! "chat_history" ≠ Some (VList 1%positive) ∧
  heap (handle second_session (succeeds "hi" "hello")) !! 1%positive = Some [].
Proof.
  split; [vm_compute; reflexivity|].
  split; [vm_compute; discriminate|].
  apply (turn_mutates_only_stored_list second_session
           (succeeds "hi" "hello") 1%positive []).
  - vm_compute; reflexivity.
  - vm_compute; discriminate.
Defined.

(** ** One list object per conversation *)

(** X9. Once a turn of the session has succeeded, every later turn, however
    it ends, leaves the same list object stored under ["chat_history"]:
    the conversation is kept by appending to that one list. *)
Theorem stored_list_kept (key : string) (ts : list turn) (t : turn) :
  existsb answers ts = true →
  user_session (handle (session key ts) t) !! "chat_history" =
  user_session (session key ts) !! "chat_history".
Proof.
  intros Hex. destruct (session_spec key ts) as (Hh & _).
  assert (transcript_of ts ≠ []) as Hne.
  { intros E%transcript_of_nil. congruence. }
  apply stored_history_Some in Hh as (l & Hs & Hl).
  destruct t as [m [r|e]]; unfold handle; simpl.
  - unfold handle, exec; rewrite (main_returns_shared _ _ _ _ Hs Hl _ Hne); simpl.
    by rewrite lookup_insert_eq.
  - by unfold handle, exec; rewrite (main_raises_shared _ _ _ _ Hs Hl _ Hne).
Qed.

Lemma stored_list_kept_witness :
  existsb answers [succeeds "hi" "hello"] = true ∧
  user_session
    (handle (session "key" [succeeds "hi" "hello"]) (succeeds "more" "sure"))
    !! "chat_history" =
  user_session (session "key" [succeeds "hi" "hello"]) !! "chat_history".
Proof.
  split; [reflexivity|].
  by apply (stored_list_kept "key" [succeeds "hi" "hello"]
              (succeeds "more" "sure")).
Defined.

(** ** A message before any history is stored *)

(** X10. When nothing is stored under ["chat_history"], the handler still
    works on a list of its own: the orchestration call gets the user
    entry alone, with whatever is stored as orchestrator and run
    configuration ([None] when nothing is); a call that returns makes the
    two entries of the turn the stored transcript, a call that raises
    leaves every entry under a key that is not reserved as it was. The
    handler returns normally unless an exception that is not an
    [Exception] comes out of the call. *)
Theorem message_without_history
    (st : state) (o : Runner.outcome) (message : cl.Message) :
  user_session st !! "chat_history" = None →
  let st' := exec (main o message) st in
  (main o message st).1 =
    match o with
    | Runner.Returns _ => Ok ()
    | Runner.Raises e => if isinstance_Exception e then Ok () else Raise e
    end ∧
  (∃ hv, runs st' =
     runs st ++
     [mkRunCall (default VNone (user_session st !! "Orchestrator_agent"))
                hv [user_entry message]
                (default VNone (user_session st !! "config"))]) ∧
  match o with
  | Runner.Returns r =>
      stored_history st' = Some [user_entry message; assistant_entry r]
  | Runner.Raises _ => user_session st' = user_session st
  end.
Proof.
  intros Hs. destruct st as [hp us ms rs cs ctx rv]. simpl in *.
  unfold main, main_setup, main_try, stored_history. step_handlers.
  rewrite Hs; simpl.
  destruct o as [r|e]; simpl; rewrite ?lookup_total_insert_eq.
  - rewrite !lookup_insert_eq; simpl. eauto.
  - destruct (isinstance_Exception e); simpl; eauto.
Qed.

Lemma message_without_history_witness :
  user_session new_session !! "chat_history" = None ∧
  stored_history
    (exec (main (Runner.Returns (Runner.mkRunResult "hello"))
                (cl.mkMessage "hi")) new_session) =
  Some [mkEntry "user" "hi"; mkEntry "assistant" "hello"].
Proof.
  split; [reflexivity|].
  apply (message_without_history new_session
           (Runner.Returns (Runner.mkRunResult "hello")) (cl.mkMessage "hi")).
  reflexivity.
Defined.

(** ** The context given to each orchestration call *)

Lemma session_runs_prefix key ts ts' :
  runs (session key ts) `prefix_of` runs (session key (ts ++ ts')).
Proof.
  induction ts' as [|t ts' IH] using rev_ind.
  - by rewrite (right_id_L [] (++)).
  - rewrite (assoc_L (++)), session_snoc.
    destruct (session_spec key (ts ++ ts')) as (Hh & _).
    destruct (handle_spec _ t _ Hh) as (_ & _ & _ & _ & hv & ->).
    etrans; [exact IH|]. by apply prefix_app_r.
Qed.

(** X11. In any session, the orchestration call of each turn is given the
    stored transcript as the turns before it left it, followed by the
    user entry of that turn. *)
Theorem session_run_inputs
    (key : string) (ts1 : list turn) (t : turn) (ts2 : list turn) :
  input_entries <$> runs (session key (ts1 ++ t :: ts2)) !! length ts1 =
  Some (transcript (session key ts1) ++ [user_entry t.1]).
Proof.
  destruct (session_spec key ts1) as (Hh & _).
  destruct (handle_spec _ t _ Hh) as (_ & _ & _ & _ & hv & Hruns).
  rewrite <- session_snoc in Hruns.
  destruct (session_runs_prefix key (ts1 ++ [t]) ts2) as [rest Hrest].
  rewrite <- (assoc_L (++)) in Hrest; simpl in Hrest.
  rewrite Hrest, Hruns, <- (assoc_L (++)).
  rewrite lookup_app_r by (rewrite (proj1 (session_runs key ts1)); lia).
  rewrite (proj1 (session_runs key ts1)), Nat.sub_diag; simpl.
  by rewrite transcript_session.
Qed.

(** ** Start-up with a key *)

(** X12. When the environment the module reads holds a non-empty
    [GEMINI_API_KEY], running the module ends normally with both handlers
    registered, and the session-start handler it registered stores a run
    configuration whose client carries that key. *)
Theorem key_reaches_client
    (load_dotenv : gmap string string → gmap string string)
    (environ : gmap string string) (k : string) (st : state) :
  os_getenv (load_dotenv environ) "GEMINI_API_KEY" = Some k →
  k ≠ "" →
  ∃ start,
    import_main load_dotenv environ = (Ok (), mkHooks (Some start) (Some main)) ∧
    ∃ cfg, user_session (exec start st) !! "config" = Some (VConfig cfg) ∧
           api_key (model_provider cfg) = k ∧
           api_key (openai_client (model cfg)) = k.
Proof.
  intros Hk Hne. exists (chat_start k). split.
  - unfold import_main. rewrite Hk. simpl.
    by rewrite bool_decide_eq_false_2.
  - exists (Config.config k). rewrite chat_start_spec; simpl.
    by simplify_map_eq.
Qed.

Lemma key_reaches_client_witness :
  os_getenv (<["GEMINI_API_KEY" := "secret"]> ∅) "GEMINI_API_KEY" =
    Some "secret" ∧
  "secret" ≠ "" ∧
  ∃ start,
    import_main <["GEMINI_API_KEY" := "secret"]> ∅ =
      (Ok (), mkHooks (Some start) (Some main)) ∧
    ∃ cfg, user_session (exec start new_session) !! "config" =
             Some (VConfig cfg) ∧
           api_key (model_provider cfg) = "secret" ∧
           api_key (openai_client (model cfg)) = "secret".
Proof.
  split; [reflexivity|]. split; [discriminate|].
  apply (key_reaches_client <["GEMINI_API_KEY" := "secret"]> ∅ "secret"
           new_session); [reflexivity|discriminate].
Defined.
